(** * FlashrankRerank: the Flashrank document compressor

    A shallow embedding of
    [libs/community/langchain_community/document_compressors/flashrank_rerank.py]
    and the properties of its adapter logic: passage construction,
    truncation to [top_n], the score threshold, and the metadata written on
    the documents that are returned.

    Python values are modelled as the code has them: [int] as [Z], [float]
    as the kernel's binary64 floats, [str] as [string], a [dict] with string
    keys as [gmap string _], a [set] of strings as [gset string], exceptions
    as a result type. *)

From Stdlib Require Import ZArith Floats.
From stdpp Require Import base option list gmap strings.

Local Open Scope Z_scope.

(** ** Exceptions and the result type *)

(** The exceptions the module can end in.  [Upstream] wraps whatever the
    flashrank library itself raises (model loading, inference): the adapter
    catches nothing, so such an exception reaches the caller unchanged. *)
Inductive exn : Type :=
  | ImportError (msg : string)
  | ValueError (msg : string)
  | IndexError
  | AttributeError (attr : string)
  | Upstream (e : string).

Inductive res (A : Type) : Type :=
  | Ok (a : A)
  | Raise (e : exn).
Arguments Ok {A} a.
Arguments Raise {A} e.

Definition res_bind {A B} (m : res A) (f : A → res B) : res B :=
  match m with
  | Ok a => f a
  | Raise e => Raise e
  end.

Notation "x ←ᵣ m ; k" := (res_bind m (λ x, k))
  (at level 20, m at level 100, k at level 200, right associativity,
   format "x  ←ᵣ  m ;  '/' k").

(** A call into the flashrank library either returns or raises. *)
Definition lift_upstream {A} (r : string + A) : res A :=
  match r with
  | inl e => Raise (Upstream e)
  | inr a => Ok a
  end.

(** ** Data model *)

(** Metadata values ([Dict[str, Any]] restricted to scalars). *)
Inductive value : Type :=
  | VNone
  | VBool (b : bool)
  | VInt (z : Z)
  | VFloat (f : float)
  | VStr (s : string).

(** [langchain_core.documents.Document]. *)
Record Document : Type := mkDocument {
  page_content : string;
  metadata : gmap string value;
}.

(** The passage dictionaries [{"id": i, "text": ..., "meta": ...}]. *)
Record Passage : Type := mkPassage {
  passage_id : Z;
  passage_text : string;
  passage_meta : gmap string value;
}.

(** [flashrank.RerankRequest]. *)
Record RerankRequest : Type := mkRerankRequest {
  query : string;
  passages : list Passage;
}.

(** The dictionaries [client.rerank] returns; the adapter reads the keys
    ["id"], ["text"] and ["score"]. *)
Record RerankResult : Type := mkRerankResult {
  result_id : Z;
  result_text : string;
  result_score : float;
}.

(** [flashrank.Ranker]: an object with a [rerank] method. *)
Record Ranker : Type := mkRanker {
  rerank : RerankRequest → string + list RerankResult;
}.

(** Values a caller can pass as keyword arguments ([Any]).  [ORanker] is an
    instance of [flashrank.Ranker], [OInstance] one of some other class;
    neither class defines [__bool__] or [__len__], so both are truthy. *)
Inductive pyobj : Type :=
  | ONone
  | OBool (b : bool)
  | OInt (z : Z)
  | OFloat (f : float)
  | OStr (s : string)
  | OSet (s : gset string)
  | ORanker (r : Ranker)
  | OInstance (cls : string).

(** Python truth value testing. *)
Definition truthy (o : pyobj) : bool :=
  match o with
  | ONone => false
  | OBool b => b
  | OInt z => negb (z =? 0)
  | OFloat f => negb (f =? 0)%float
  | OStr s => negb (String.eqb s "")
  | OSet s => negb (bool_decide (s = ∅))
  | ORanker _ => true
  | OInstance _ => true
  end.

(** [isinstance(o, Ranker)]. *)
Definition isinstance_Ranker (o : pyobj) : bool :=
  match o with
  | ORanker _ => true
  | _ => false
  end.

(** [type(o)] as the f-string prints it. *)
Definition type_repr (o : pyobj) : string :=
  match o with
  | ONone => "<class 'NoneType'>"
  | OBool _ => "<class 'bool'>"
  | OInt _ => "<class 'int'>"
  | OFloat _ => "<class 'float'>"
  | OStr _ => "<class 'str'>"
  | OSet _ => "<class 'set'>"
  | ORanker _ => "<class 'flashrank.Ranker.Ranker'>"
  | OInstance cls => "<class '" +:+ cls +:+ "'>"
  end.

(** ** Python list operations *)

(** The position an [int] index denotes in a sequence of length [n]: a
    negative index counts from the end; out of range there is none. *)
Definition py_index (n : nat) (i : Z) : option nat :=
  let j := if i <? 0 then i + Z.of_nat n else i in
  if (j <? 0) || (Z.of_nat n <=? j) then None else Some (Z.to_nat j).

(** [l[i]]: an index out of range raises [IndexError]. *)
Definition py_getitem {A} (l : list A) (i : Z) : res A :=
  match py_index (length l) i with
  | Some p =>
      match l !! p with
      | Some x => Ok x
      | None => Raise IndexError
      end
  | None => Raise IndexError
  end.

(** [l[:k]] for an [int] bound: a negative bound counts from the end and
    is clamped at the start of the list. *)
Definition py_slice_to {A} (l : list A) (k : Z) : list A :=
  if 0 <=? k then take (Z.to_nat k) l
  else take (Z.to_nat (Z.of_nat (length l) + k)) l.

(** ** The class *)

Definition DEFAULT_MODEL_NAME : string := "ms-marco-MultiBERT-L-12".

Record FlashrankRerank : Type := mkFlashrankRerank {
  client : pyobj;
  model : string;
  top_n : Z;
  score_threshold : float;
  prefix_metadata : string;
  filter_metadata_keys : option (gset string);
}.

(** The field defaults of the class body. *)
Definition FlashrankRerank_defaults : FlashrankRerank :=
  {| client := ONone;
     model := DEFAULT_MODEL_NAME;
     top_n := 3;
     score_threshold := 0%float;
     prefix_metadata := "";
     filter_metadata_keys := None |}.

(** What the adapter finds around it: whether [flashrank] can be imported,
    what [Ranker(model_name=...)] does, and pydantic's own validation of
    the declared fields, which runs after the ["before"] validator. *)
Record Env : Type := mkEnv {
  flashrank_installed : bool;
  Ranker_init : string → string + Ranker;
  pydantic_fields : gmap string pyobj → res FlashrankRerank;
}.

Definition validate_environment (env : Env) (values : gmap string pyobj)
  : res (gmap string pyobj) :=
  if negb (flashrank_installed env) then
    Raise (ImportError
      ("Could not import flashrank python package. " +:+
       "Please install it with `pip install flashrank`."))
  else
    match values !! "client" with
    | Some c =>
        if truthy c && negb (isinstance_Ranker c) then
          Raise (ValueError
            ("Client Ranker expected from type `flashranker.Ranker.Ranker`. " +:+
             "Defined: " +:+ type_repr c +:+ "."))
        else Ok values
    | None => Ok values
    end.

(** Instantiating the class from keyword arguments: the ["before"]
    validator, then the fields. *)
Definition FlashrankRerank_init (env : Env) (values : gmap string pyobj)
  : res FlashrankRerank :=
  vs ←ᵣ validate_environment env values;
  pydantic_fields env vs.

Definition get_client (env : Env) (self : FlashrankRerank) : res pyobj :=
  if truthy (client self) then Ok (client self)
  else r ←ᵣ lift_upstream (Ranker_init env (model self)); Ok (ORanker r).

(** [client.rerank(request)] on whatever [get_client] returned. *)
Definition call_rerank (c : pyobj) (request : RerankRequest)
  : res (list RerankResult) :=
  match c with
  | ORanker r => lift_upstream (rerank r request)
  | _ => Raise (AttributeError "rerank")
  end.

(** [if self.filter_metadata_keys:] is false for [None] and for an empty set. *)
Definition filter_keys_truthy (o : option (gset string)) : bool :=
  match o with
  | None => false
  | Some s => negb (bool_decide (s = ∅))
  end.

(** [{key: md[key] for key in keys if key in md.keys()}], the keys taken in
    the iteration order of the set. *)
Definition restrict_metadata (keys : gset string) (md : gmap string value)
  : gmap string value :=
  foldl (λ acc key,
           match md !! key with
           | Some v => <[key := v]> acc
           | None => acc
           end) ∅ (elements keys).

Definition passage_of (self : FlashrankRerank) (i : Z) (doc : Document) : Passage :=
  {| passage_id := i;
     passage_text := page_content doc;
     passage_meta :=
       if filter_keys_truthy (filter_metadata_keys self) then
         match filter_metadata_keys self with
         | Some keys => restrict_metadata keys (metadata doc)
         | None => metadata doc
         end
       else metadata doc |}.

(** The first loop: [enumerate] counts from 0 and each passage is appended. *)
Definition build_passages (self : FlashrankRerank) (documents : list Document)
  : list Passage :=
  snd (foldl (λ '(i, acc) doc, (i + 1, acc ++ [passage_of self i doc]))
             (0, []) documents).

(** [r["score"] >= self.score_threshold]. *)
Definition score_ok (self : FlashrankRerank) (r : RerankResult) : bool :=
  (score_threshold self <=? result_score r)%float.

(** [d.update(m)]: the entries of [m] replace those of [d]. *)
Definition dict_update {V} (d m : gmap string V) : gmap string V := m ∪ d.

(** The dictionary display of the output metadata: the two adapter keys
    come first, the unpacked metadata of the source document last. *)
Definition output_metadata (self : FlashrankRerank) (r : RerankResult)
    (src : Document) : gmap string value :=
  dict_update
    (<[prefix_metadata self +:+ "relevance_score" := VFloat (result_score r)]>
       (<[prefix_metadata self +:+ "id" := VInt (result_id r)]> ∅))
    (metadata src).

Definition output_document (self : FlashrankRerank) (documents : list Document)
    (r : RerankResult) : res Document :=
  src ←ᵣ py_getitem documents (result_id r);
  Ok {| page_content := result_text r;
        metadata := output_metadata self r src |}.

(** One turn of the second loop, on the list built so far. *)
Definition collect (self : FlashrankRerank) (documents : list Document)
    (acc : res (list Document)) (r : RerankResult) : res (list Document) :=
  final_results ←ᵣ acc;
  if score_ok self r then
    doc ←ᵣ output_document self documents r;
    Ok (final_results ++ [doc])
  else Ok final_results.

Definition rerank_request_of (self : FlashrankRerank) (documents : list Document)
    (q : string) : RerankRequest :=
  {| query := q; passages := build_passages self documents |}.

(** [Callbacks]: a list of handlers, here by name. *)
Definition Callbacks : Type := list string.

Definition compress_documents (env : Env) (self : FlashrankRerank)
    (documents : list Document) (q : string) (callbacks : option Callbacks)
  : res (list Document) :=
  c ←ᵣ get_client env self;
  results ←ᵣ call_rerank c (rerank_request_of self documents q);
  let rerank_response := py_slice_to results (top_n self) in
  foldl (collect self documents) (Ok []) rerank_response.

(** ** The algorithm as the specification words it *)

(** Applying a fallible function to every element, in order; the first
    exception ends the traversal. *)
Fixpoint res_mapM {A B} (f : A → res B) (l : list A) : res (list B) :=
  match l with
  | [] => Ok []
  | x :: l' => y ←ᵣ f x; ys ←ᵣ res_mapM f l'; Ok (y :: ys)
  end.

(** Steps 4 to 7 of the specified algorithm: keep the first [top_n]
    results, drop those under the threshold, build a document for each of
    the others, in that order. *)
Definition truncate_then_filter (self : FlashrankRerank)
    (documents : list Document) (results : list RerankResult)
  : res (list Document) :=
  res_mapM (output_document self documents)
           (filter (λ r, score_ok self r = true)
                   (take (Z.to_nat (top_n self)) results)).

(** Every result names the position of an input document, and no two name
    the same one. *)
Definition distinct_positions (documents : list Document)
    (results : list RerankResult) : Prop :=
  ∃ ps : list nat,
    Forall2 (λ r p, py_index (length documents) (result_id r) = Some p)
            results ps
    ∧ NoDup ps.

(** The exceptions of the construction-time validation. *)
Definition is_configuration_error (e : exn) : bool :=
  match e with
  | ImportError _ | ValueError _ => true
  | _ => false
  end.

(** ** Sample data *)

(** A configuration with its [client] field replaced. *)
Definition with_client (c : pyobj) (self : FlashrankRerank) : FlashrankRerank :=
  {| client := c;
     model := model self;
     top_n := top_n self;
     score_threshold := score_threshold self;
     prefix_metadata := prefix_metadata self;
     filter_metadata_keys := filter_metadata_keys self |}.

(** A client that answers every request with the same results. *)
Definition canned_ranker (results : list RerankResult) : Ranker :=
  {| rerank := λ _, inr results |}.

(** A client that returns one result per passage, in the order received,
    all with the same score. *)
Definition echo_ranker (score : float) : Ranker :=
  {| rerank := λ request,
       inr ((λ p, mkRerankResult (passage_id p) (passage_text p) score)
              <$> passages request) |}.

(** Field validation that reads [client] and leaves the other fields at
    their defaults. *)
Definition sample_fields (values : gmap string pyobj) : res FlashrankRerank :=
  Ok (with_client (default ONone (values !! "client")) FlashrankRerank_defaults).

Definition sample_env : Env :=
  {| flashrank_installed := true;
     Ranker_init := λ _, inr (echo_ranker 0.5%float);
     pydantic_fields := sample_fields |}.

Definition sample_doc (text : string) (source : string) : Document :=
  {| page_content := text; metadata := {[ "source" := VStr source ]} |}.

(** Five documents and the ranking of the worked example: ids [2,0,4,1,3]
    in decreasing score. *)
Definition sample_documents : list Document :=
  [ sample_doc "d0" "a.txt"; sample_doc "d1" "b.txt"; sample_doc "d2" "c.txt";
    sample_doc "d3" "d.txt"; sample_doc "d4" "e.txt" ].

Definition sample_results : list RerankResult :=
  [ mkRerankResult 2 "d2" 0.875%float; mkRerankResult 0 "d0" 0.75%float;
    mkRerankResult 4 "d4" 0.375%float; mkRerankResult 1 "d1" 0.25%float;
    mkRerankResult 3 "d3" 0.125%float ].

Definition sample_config : FlashrankRerank :=
  {| client := ORanker (canned_ranker sample_results);
     model := DEFAULT_MODEL_NAME;
     top_n := 3;
     score_threshold := 0.5%float;
     prefix_metadata := "";
     filter_metadata_keys := None |}.

(** The threshold set to the score of the third result. *)
Definition boundary_config : FlashrankRerank :=
  {| client := ORanker (canned_ranker sample_results);
     model := DEFAULT_MODEL_NAME;
     top_n := 3;
     score_threshold := 0.375%float;
     prefix_metadata := "";
     filter_metadata_keys := None |}.



(** [top_n = -1]: the slice drops the last result instead of capping. *)
Definition negative_top_n_config : FlashrankRerank :=
  {| client := ORanker (canned_ranker sample_results);
     model := DEFAULT_MODEL_NAME;
     top_n := -1;
     score_threshold := 0%float;
     prefix_metadata := "";
     filter_metadata_keys := None |}.




(** [filter_metadata_keys = set()]. *)
Definition empty_filter_config : FlashrankRerank :=
  {| client := ORanker (echo_ranker 0.5%float);
     model := DEFAULT_MODEL_NAME;
     top_n := 3;
     score_threshold := 0%float;
     prefix_metadata := "";
     filter_metadata_keys := Some ∅ |}.

Definition source_filter_config : FlashrankRerank :=
  {| client := ORanker (echo_ranker 0.5%float);
     model := DEFAULT_MODEL_NAME;
     top_n := 3;
     score_threshold := 0%float;
     prefix_metadata := "";
     filter_metadata_keys := Some {[ "source"; "lang" ]} |}.

Definition tagged_document : Document :=
  {| page_content := "text";
     metadata := {[ "source" := VStr "a.txt"; "secret" := VInt 42 ]} |}.

(** A configuration with its [filter_metadata_keys] field replaced. *)
Definition with_filter (keys : option (gset string)) (self : FlashrankRerank)
  : FlashrankRerank :=
  {| client := client self;
     model := model self;
     top_n := top_n self;
     score_threshold := score_threshold self;
     prefix_metadata := prefix_metadata self;
     filter_metadata_keys := keys |}.

(** A client whose [rerank] raises. *)
Definition failing_ranker (e : string) : Ranker :=
  {| rerank := λ _, inl e |}.

(** An environment in which no model can be loaded. *)
Definition offline_env : Env :=
  {| flashrank_installed := true;
     Ranker_init := λ m, inl ("cannot load " +:+ m);
     pydantic_fields := sample_fields |}.

(** An environment without the flashrank package. *)
Definition bare_env : Env :=
  {| flashrank_installed := false;
     Ranker_init := λ m, inl ("cannot load " +:+ m);
     pydantic_fields := sample_fields |}.

(** Results of which the second names a document that does not exist. *)
Definition stray_results : list RerankResult :=
  [ mkRerankResult 1 "d1" 0.75%float; mkRerankResult 7 "d7" 0.5%float;
    mkRerankResult 0 "d0" 0.25%float ].

Definition stray_config : FlashrankRerank :=
  with_client (ORanker (canned_ranker stray_results)) FlashrankRerank_defaults.

(** The threshold set to NaN. *)
Definition nan_threshold_config : FlashrankRerank :=
  {| client := ORanker (canned_ranker sample_results);
     model := DEFAULT_MODEL_NAME;
     top_n := 3;
     score_threshold := nan;
     prefix_metadata := "";
     filter_metadata_keys := None |}.

(** [top_n] above the number of results. *)
Definition wide_config : FlashrankRerank :=
  {| client := ORanker (canned_ranker sample_results);
     model := DEFAULT_MODEL_NAME;
     top_n := 10;
     score_threshold := 0.5%float;
     prefix_metadata := "rerank_";
     filter_metadata_keys := None |}.

(** A client that answers with a text of its own for document 1. *)
Definition retitled_results : list RerankResult :=
  [ mkRerankResult 1 "second" 0.75%float ].

Definition retitled_config : FlashrankRerank :=
  with_client (ORanker (canned_ranker retitled_results)) FlashrankRerank_defaults.

(** * Properties *)

(** ** The result monad *)

Lemma res_mapM_Ok {A B} (f : A → res B) (l : list A) (ys : list B) :
  res_mapM f l = Ok ys ↔ Forall2 (λ x y, f x = Ok y) l ys.
Proof.
  revert ys. induction l as [|x l IH]; intros ys; simpl.
  - split; [intros [= <-]; constructor | by inversion 1].
  - destruct (f x) as [y|e] eqn:Hx; simpl.
    + destruct (res_mapM f l) as [ys'|e] eqn:Hl; simpl.
      * split.
        -- intros [= <-]. constructor; [done | by apply IH].
        -- inversion 1 as [|? y' ? ys'' Hy Hrest]; subst.
           apply IH in Hrest. congruence.
      * split; [done|].
        inversion 1 as [|? y' ? ys'' Hy Hrest]; subst.
        apply IH in Hrest. congruence.
    + split; [done|]. inversion 1; congruence.
Qed.

Lemma res_mapM_length {A B} (f : A → res B) (l : list A) (ys : list B) :
  res_mapM f l = Ok ys → length ys = length l.
Proof. intros H%res_mapM_Ok. symmetry. by eapply Forall2_length. Qed.

Lemma res_mapM_total {A B} (f : A → res B) (l : list A) :
  Forall (λ x, ∃ y, f x = Ok y) l → ∃ ys, res_mapM f l = Ok ys.
Proof.
  induction 1 as [|x l [y Hy] _ [ys Hys]]; simpl; [by eexists|].
  rewrite Hy, Hys. by eexists.
Qed.

(** ** Python indexing and slicing *)

Lemma py_index_lt (n : nat) (i : Z) (p : nat) :
  py_index n i = Some p → (p < n)%nat.
Proof.
  unfold py_index. destruct (i <? 0) eqn:Hi;
    destruct (_ || _) eqn:Hb; intros [= <-];
    apply orb_false_iff in Hb as [H1 H2]; lia.
Qed.

Lemma py_getitem_Ok {A} (l : list A) (i : Z) (p : nat) :
  py_index (length l) i = Some p → ∃ x, l !! p = Some x ∧ py_getitem l i = Ok x.
Proof.
  intros Hp. unfold py_getitem. rewrite Hp.
  destruct (lookup_lt_is_Some_2 l p (py_index_lt _ _ _ Hp)) as [x Hx].
  exists x. by rewrite Hx.
Qed.

Lemma py_getitem_nil {A} (i : Z) : py_getitem (@nil A) i = Raise IndexError.
Proof.
  unfold py_getitem. destruct (py_index _ i) as [p|] eqn:Hp; [|done].
  apply py_index_lt in Hp. simpl in Hp. lia.
Qed.

Lemma py_slice_to_nonneg {A} (l : list A) (k : Z) :
  0 ≤ k → py_slice_to l k = take (Z.to_nat k) l.
Proof. intros Hk. unfold py_slice_to. destruct (0 <=? k) eqn:H; [done|lia]. Qed.

Lemma py_slice_to_prefix {A} (l : list A) (k : Z) : py_slice_to l k `prefix_of` l.
Proof.
  unfold py_slice_to. destruct (0 <=? k);
    eexists; symmetry; apply take_drop.
Qed.

(** ** The two loops *)

(** The first loop builds the passage of each document at its position. *)
Lemma build_passages_imap (self : FlashrankRerank) (documents : list Document) :
  build_passages self documents =
  imap (λ i doc, passage_of self (Z.of_nat i) doc) documents.
Proof.
  unfold build_passages.
  enough (∀ (k : nat) acc,
    foldl (λ '(i, acc) doc, (i + 1, acc ++ [passage_of self i doc]))
          (Z.of_nat k, acc) documents
    = (Z.of_nat (k + length documents),
       acc ++ imap (λ i doc, passage_of self (Z.of_nat (k + i)) doc) documents))
    as H.
  { specialize (H 0%nat []). change (Z.of_nat 0) with 0 in H. by rewrite H. }
  induction documents as [|doc documents IH]; intros k acc; simpl.
  - by rewrite Nat.add_0_r, app_nil_r.
  - replace (Z.of_nat k + 1) with (Z.of_nat (S k)) by lia.
    rewrite IH. f_equal; [f_equal; lia|].
    rewrite <- app_assoc. simpl. rewrite Nat.add_0_r. do 2 f_equal.
    apply imap_ext. intros i x _. simpl. do 2 f_equal. lia.
Qed.

(** Once an exception is raised nothing more is collected. *)
Lemma collect_Raise (self : FlashrankRerank) (documents : list Document)
    (response : list RerankResult) (e : exn) :
  foldl (collect self documents) (Raise e) response = Raise e.
Proof. induction response as [|r response IH]; [done|]. apply IH. Qed.

(** The second loop is a filter followed by an ordered traversal. *)
Lemma collect_foldl (self : FlashrankRerank) (documents : list Document)
    (response : list RerankResult) (final_results : list Document) :
  foldl (collect self documents) (Ok final_results) response =
  (docs ←ᵣ res_mapM (output_document self documents)
                     (filter (λ r, score_ok self r = true) response);
   Ok (final_results ++ docs)).
Proof.
  revert final_results.
  induction response as [|r response IH]; intros final_results.
  - simpl. by rewrite app_nil_r.
  - rewrite filter_cons. cbn [foldl].
    replace (collect self documents (Ok final_results) r)
      with (if score_ok self r
            then doc ←ᵣ output_document self documents r;
                 Ok (final_results ++ [doc])
            else Ok final_results) by done.
    destruct (decide (score_ok self r = true)) as [Hr|Hr].
    + rewrite Hr. cbn [res_mapM].
      destruct (output_document self documents r) as [doc|e]; simpl.
      * rewrite IH. destruct (res_mapM _ _); simpl; [|done].
        by rewrite <- app_assoc.
      * apply collect_Raise.
    + apply not_true_is_false in Hr. rewrite Hr. apply IH.
Qed.

(** [compress_documents] once the client and its answer are known. *)
Lemma compress_documents_run (env : Env) (self : FlashrankRerank)
    (documents : list Document) (q : string) (callbacks : option Callbacks)
    (c : pyobj) (results : list RerankResult) :
  get_client env self = Ok c →
  call_rerank c (rerank_request_of self documents q) = Ok results →
  compress_documents env self documents q callbacks =
  res_mapM (output_document self documents)
           (filter (λ r, score_ok self r = true)
                   (py_slice_to results (top_n self))).
Proof.
  intros Hc Hr. unfold compress_documents. rewrite Hc. simpl. rewrite Hr. simpl.
  rewrite collect_foldl. by destruct (res_mapM _ _).
Qed.

(** ** Passage construction *)

(** C8: the passage built for the document at position [i] has id [i]; the
    ids of the passages of a request are [0, 1, ..., n-1] in input order,
    so none is repeated and none is skipped. *)
Theorem passage_ids_are_positions (self : FlashrankRerank)
    (documents : list Document) (q : string) :
  passage_id <$> passages (rerank_request_of self documents q)
    = Z.of_nat <$> seq 0 (length documents)
  ∧ length (passages (rerank_request_of self documents q)) = length documents
  ∧ NoDup (passage_id <$> passages (rerank_request_of self documents q))
  ∧ ∀ (i : nat) (doc : Document),
      documents !! i = Some doc →
      ∃ p, passages (rerank_request_of self documents q) !! i = Some p
           ∧ passage_id p = Z.of_nat i
           ∧ passage_text p = page_content doc.
Proof.
  simpl. rewrite build_passages_imap.
  assert (passage_id <$> imap (λ i doc, passage_of self (Z.of_nat i) doc) documents
          = Z.of_nat <$> seq 0 (length documents)) as Hids.
  { rewrite fmap_imap.
    change (λ n, passage_id ∘ (λ doc, passage_of self (Z.of_nat n) doc))
      with (λ (n : nat) (_ : Document), Z.of_nat n).
    apply imap_seq_0. }
  split; [exact Hids|]. split; [apply length_imap|]. split.
  - rewrite Hids. apply (NoDup_fmap_2 Z.of_nat), NoDup_seq.
  - intros i doc Hi. eexists. rewrite list_lookup_imap, Hi. simpl. done.
Qed.

(** ** Callbacks *)

(** C10: the [callbacks] argument is never read: two calls that differ in
    it alone have the same outcome. *)
Theorem callbacks_are_ignored (env : Env) (self : FlashrankRerank)
    (documents : list Document) (q : string) (cb1 cb2 : option Callbacks) :
  compress_documents env self documents q cb1
  = compress_documents env self documents q cb2.
Proof. reflexivity. Qed.

(** ** Empty input *)

(** C9: for an empty sequence of documents the request holds no passage;
    the call cannot return anything but the empty list, and it does return
    it as soon as the client answers the empty request with no result. *)
Theorem empty_documents (env : Env) (self : FlashrankRerank) (q : string)
    (callbacks : option Callbacks) :
  passages (rerank_request_of self [] q) = []
  ∧ (∀ out, compress_documents env self [] q callbacks = Ok out → out = [])
  ∧ (∀ c, get_client env self = Ok c →
          call_rerank c {| query := q; passages := [] |} = Ok [] →
          compress_documents env self [] q callbacks = Ok []).
Proof.
  split; [done|]. split.
  - intros out. unfold compress_documents.
    destruct (get_client env self) as [c|e]; simpl; [|done].
    destruct (call_rerank c _) as [results|e]; simpl; [|done].
    rewrite collect_foldl. simpl.
    destruct (filter _ _) as [|r rs]; simpl; [congruence|].
    unfold output_document at 1. by rewrite py_getitem_nil.
  - intros c Hc Hr.
    rewrite (compress_documents_run env self [] q callbacks c [] Hc Hr).
    unfold py_slice_to. destruct (0 <=? top_n self); by rewrite take_nil.
Qed.

Lemma empty_documents_witness :
  passages (rerank_request_of empty_filter_config [] "query") = []
  ∧ compress_documents sample_env empty_filter_config [] "query" None = Ok [].
Proof.
  destruct (empty_documents sample_env empty_filter_config "query" None)
    as (Hp & _ & Hrun).
  split; [exact Hp|]. apply (Hrun (ORanker (echo_ranker 0.5%float))); reflexivity.
Defined.

(** ** Truncation and threshold *)

(** C2, for [top_n >= 0]: the results are cut to their first [top_n]
    entries, then those under the threshold are dropped, and the documents
    are returned in that order; every returned document stems from a result
    the client ranked before position [top_n]. *)
Theorem truncate_before_threshold (env : Env) (self : FlashrankRerank)
    (documents : list Document) (q : string) (callbacks : option Callbacks)
    (c : pyobj) (results : list RerankResult) :
  0 ≤ top_n self →
  get_client env self = Ok c →
  call_rerank c (rerank_request_of self documents q) = Ok results →
  take (Z.to_nat (top_n self)) results `prefix_of` results
  ∧ Z.of_nat (length (take (Z.to_nat (top_n self)) results)) ≤ top_n self
  ∧ compress_documents env self documents q callbacks
    = truncate_then_filter self documents results
  ∧ ∀ out, compress_documents env self documents q callbacks = Ok out →
      Forall (λ doc, ∃ (i : nat) r,
                Z.of_nat i < top_n self ∧ results !! i = Some r
                ∧ score_ok self r = true
                ∧ output_document self documents r = Ok doc) out.
Proof.
  intros Hn Hc Hr.
  pose proof (compress_documents_run env self documents q callbacks c results Hc Hr)
    as Hrun.
  rewrite py_slice_to_nonneg in Hrun by done.
  split; [eexists; symmetry; apply take_drop|].
  split; [rewrite length_take; lia|].
  split; [exact Hrun|].
  intros out Hout. rewrite Hrun in Hout. apply res_mapM_Ok in Hout.
  apply Forall_forall. intros doc Hdoc.
  apply list_elem_of_lookup in Hdoc as [j Hj].
  destruct (Forall2_lookup_r _ _ _ _ _ Hout Hj) as (r & Hrj & Hdocr).
  apply list_elem_of_lookup_2, list_elem_of_filter in Hrj as [Hok Hin].
  apply list_elem_of_lookup in Hin as [i Hi].
  apply lookup_take_Some in Hi as [Hi Hlt].
  exists i, r. repeat split; [lia|done..].
Qed.

Lemma truncate_before_threshold_witness :
  compress_documents sample_env sample_config sample_documents "query" None
  = truncate_then_filter sample_config sample_documents sample_results
  ∧ page_content <$>
      default [] (match compress_documents sample_env sample_config
                          sample_documents "query" None with
                  | Ok out => Some out
                  | Raise _ => None
                  end) = ["d2"; "d0"].
Proof.
  split; [|reflexivity].
  apply (truncate_before_threshold sample_env sample_config sample_documents
           "query" None (ORanker (canned_ranker sample_results)) sample_results);
    [vm_compute; discriminate | reflexivity | reflexivity].
Defined.

(** With [top_n = -1] the slice keeps all results but the last: four
    documents are returned, more than [top_n], among them results ranked
    at positions 0 to 3. *)
Lemma truncate_negative_top_n :
  top_n negative_top_n_config = -1
  ∧ ∃ out,
      compress_documents sample_env negative_top_n_config sample_documents
        "query" None = Ok out
      ∧ page_content <$> out = ["d2"; "d0"; "d4"; "d1"]
      ∧ top_n negative_top_n_config < Z.of_nat (length out).
Proof.
  split; [reflexivity|]. eexists. split; [vm_compute; reflexivity|].
  split; [reflexivity | vm_compute; reflexivity].
Qed.

(** ** Length of the result *)

Lemma distinct_positions_length (documents : list Document)
    (results : list RerankResult) :
  distinct_positions documents results → (length results ≤ length documents)%nat.
Proof.
  intros (ps & Hps & Hnd).
  rewrite (Forall2_length _ _ _ Hps).
  assert (ps ⊆+ seq 0 (length documents)) as Hsub.
  { apply NoDup_submseteq; [done|].
    intros p Hp. apply list_elem_of_lookup in Hp as [j Hj].
    destruct (Forall2_lookup_r _ _ _ _ _ Hps Hj) as (r & _ & Hr).
    apply py_index_lt in Hr. apply elem_of_seq. lia. }
  apply submseteq_length in Hsub. by rewrite length_seq in Hsub.
Qed.

Lemma distinct_positions_total (self : FlashrankRerank)
    (documents : list Document) (results : list RerankResult) :
  distinct_positions documents results →
  Forall (λ r, ∃ doc, output_document self documents r = Ok doc) results.
Proof.
  intros (ps & Hps & _). apply Forall_forall. intros r Hr.
  apply list_elem_of_lookup in Hr as [j Hj].
  destruct (Forall2_lookup_l _ _ _ _ _ Hps Hj) as (p & _ & Hp).
  destruct (py_getitem_Ok documents _ _ Hp) as (src & _ & Hsrc).
  unfold output_document. rewrite Hsrc. simpl. by eexists.
Qed.

(** C4, for [top_n >= 0]: when every result names the position of an
    input document and no two name the same one, the call returns, and
    what it returns has at most [min(top_n, len(documents))] entries. *)
Theorem output_length_bound (env : Env) (self : FlashrankRerank)
    (documents : list Document) (q : string) (callbacks : option Callbacks)
    (c : pyobj) (results : list RerankResult) :
  0 ≤ top_n self →
  get_client env self = Ok c →
  call_rerank c (rerank_request_of self documents q) = Ok results →
  distinct_positions documents results →
  ∃ out, compress_documents env self documents q callbacks = Ok out
         ∧ Z.of_nat (length out)
           ≤ Z.min (top_n self) (Z.of_nat (length documents)).
Proof.
  intros Hn Hc Hr Hdist.
  rewrite (compress_documents_run env self documents q callbacks c results Hc Hr).
  rewrite py_slice_to_nonneg by done.
  pose proof (distinct_positions_length _ _ Hdist) as Hlen.
  pose proof (distinct_positions_total self _ _ Hdist) as Htot.
  set (kept := filter (λ r, score_ok self r = true)
                      (take (Z.to_nat (top_n self)) results)).
  assert (kept ⊆ results) as Hsub.
  { intros r [_ Hin]%list_elem_of_filter.
    by eapply subseteq_take. }
  destruct (res_mapM_total (output_document self documents) kept) as [out Hout].
  { apply Forall_forall. intros r Hin.
    rewrite Forall_forall in Htot. by apply Htot, Hsub. }
  exists out. split; [done|].
  rewrite (res_mapM_length _ _ _ Hout).
  pose proof (length_filter (λ r, score_ok self r = true)
                (take (Z.to_nat (top_n self)) results)) as Hf.
  fold kept in Hf. rewrite length_take in Hf. lia.
Qed.

Lemma sample_distinct_positions :
  distinct_positions sample_documents sample_results.
Proof.
  exists [2; 0; 4; 1; 3]%nat. split.
  - repeat constructor.
  - by apply (bool_decide_unpack _).
Qed.

Lemma output_length_bound_witness :
  ∃ out, compress_documents sample_env sample_config sample_documents
           "query" None = Ok out
         ∧ Z.of_nat (length out)
           ≤ Z.min (top_n sample_config) (Z.of_nat (length sample_documents)).
Proof.
  apply (output_length_bound sample_env sample_config sample_documents
           "query" None (ORanker (canned_ranker sample_results)) sample_results);
    [vm_compute; discriminate | reflexivity | reflexivity
    | exact sample_distinct_positions].
Defined.

(** With [top_n = -1] and five results for five documents, each naming a
    different position, four documents are returned although
    [min(top_n, len(documents))] is [-1]. *)
Lemma length_bound_negative_top_n :
  distinct_positions sample_documents sample_results
  ∧ ∃ out,
      compress_documents sample_env negative_top_n_config sample_documents
        "query" None = Ok out
      ∧ Z.min (top_n negative_top_n_config)
              (Z.of_nat (length sample_documents)) = -1
      ∧ Z.of_nat (length out) = 4.
Proof.
  split; [exact sample_distinct_positions|].
  eexists. split; [vm_compute; reflexivity|]. split; reflexivity.
Qed.

(** ** The score threshold *)




(** The third result scores exactly the threshold and is returned. *)
Example threshold_boundary_kept :
  (result_score <$> sample_results) !! 2%nat = Some (score_threshold boundary_config)
  ∧ ∃ out,
      compress_documents sample_env boundary_config sample_documents "query" None
        = Ok out
      ∧ page_content <$> out = ["d2"; "d0"; "d4"].
Proof. split; [reflexivity|]. eexists. split; [vm_compute|]; reflexivity. Qed.





(** ** Output metadata *)








(** ** Metadata forwarded to the client *)

Lemma restrict_foldl_lookup (md : gmap string value) (l : list string)
    (acc : gmap string value) (k : string) :
  foldl (λ acc key, match md !! key with
                    | Some v => <[key := v]> acc
                    | None => acc
                    end) acc l !! k
  = match md !! k with
    | Some v => if decide (k ∈ l) then Some v else acc !! k
    | None => acc !! k
    end.
Proof.
  revert acc. induction l as [|a l IH]; intros acc; cbn [foldl].
  - destruct (md !! k); [|done]. by rewrite decide_False by apply not_elem_of_nil.
  - rewrite IH. destruct (md !! k) as [v|] eqn:Hk.
    + destruct (decide (k ∈ l)) as [Hin|Hnin].
      * by rewrite decide_True by (by right).
      * destruct (decide (k = a)) as [->|Hne].
        -- rewrite Hk, lookup_insert_eq. by rewrite decide_True by left.
        -- rewrite decide_False by (by intros [?|?]%elem_of_cons).
           destruct (md !! a); [by rewrite lookup_insert_ne|done].
    + destruct (md !! a) as [w|] eqn:Ha; [|done].
      rewrite lookup_insert_ne; [done|]. intros ->. congruence.
Qed.

Lemma restrict_metadata_lookup (keys : gset string) (md : gmap string value)
    (k : string) :
  restrict_metadata keys md !! k = if decide (k ∈ keys) then md !! k else None.
Proof.
  unfold restrict_metadata. rewrite restrict_foldl_lookup, lookup_empty.
  destruct (md !! k) as [v|].
  - destruct (decide (k ∈ keys)) as [Hin|Hnin].
    + by rewrite decide_True by (by apply elem_of_elements).
    + by rewrite decide_False by (by rewrite elem_of_elements).
  - by destruct (decide (k ∈ keys)).
Qed.

(** For a non-empty [filter_metadata_keys] the passage carries the entries
    of the document's metadata under the listed keys and nothing else. *)
Theorem nonempty_filter_restricts_passage_meta (self : FlashrankRerank)
    (keys : gset string) (i : Z) (doc : Document) :
  filter_metadata_keys self = Some keys →
  keys ≠ ∅ →
  (∀ k, passage_meta (passage_of self i doc) !! k
        = if decide (k ∈ keys) then metadata doc !! k else None)
  ∧ dom (passage_meta (passage_of self i doc)) = keys ∩ dom (metadata doc).
Proof.
  intros Hkeys Hne.
  assert (passage_meta (passage_of self i doc)
          = restrict_metadata keys (metadata doc)) as ->.
  { unfold passage_of. simpl. rewrite Hkeys. simpl.
    by rewrite bool_decide_eq_false_2. }
  split; [apply restrict_metadata_lookup|].
  apply set_eq. intros k.
  rewrite elem_of_intersection, !elem_of_dom, restrict_metadata_lookup.
  destruct (decide (k ∈ keys)) as [Hin|Hnin]; [tauto|].
  split; [by intros [? ?]|tauto].
Qed.

Lemma nonempty_filter_restricts_passage_meta_witness :
  (∀ k, passage_meta (passage_of source_filter_config 0 tagged_document) !! k
        = if decide (k ∈ ({[ "source"; "lang" ]} : gset string))
          then metadata tagged_document !! k else None)
  ∧ dom (passage_meta (passage_of source_filter_config 0 tagged_document))
    = ({[ "source"; "lang" ]} : gset string) ∩ dom (metadata tagged_document).
Proof.
  apply (nonempty_filter_restricts_passage_meta source_filter_config
           {[ "source"; "lang" ]} 0 tagged_document); [reflexivity|].
  intros Hempty.
  assert ("source" ∈ (∅ : gset string)) as Hin
    by (rewrite <- Hempty; apply elem_of_union_l, elem_of_singleton_2; reflexivity).
  by apply not_elem_of_empty in Hin.
Defined.

(** The documents returned do not depend on [filter_metadata_keys]. *)
Lemma output_document_ignores_filter (self : FlashrankRerank)
    (keys : option (gset string)) (documents : list Document) (r : RerankResult) :
  output_document
    {| client := client self; model := model self; top_n := top_n self;
       score_threshold := score_threshold self;
       prefix_metadata := prefix_metadata self;
       filter_metadata_keys := keys |} documents r
  = output_document self documents r.
Proof. reflexivity. Qed.

(** C3 at [filter_metadata_keys = set()]: the guard takes the empty set
    for an absent one, and the passage carries the whole metadata of the
    document, the key ["secret"] included, where the intersection with the
    empty set has no key at all. *)
Theorem empty_filter_forwards_all_metadata :
  filter_metadata_keys empty_filter_config = Some ∅
  ∧ (∅ : gset string) ∩ dom (metadata tagged_document) = ∅
  ∧ passage_meta <$>
      passages (rerank_request_of empty_filter_config [tagged_document] "query")
    = [metadata tagged_document]
  ∧ metadata tagged_document !! "secret" = Some (VInt 42).
Proof.
  split; [reflexivity|]. split; [apply (left_absorb_L ∅ (∩))|].
  split; reflexivity.
Qed.

(** ** Validation of the client *)

Lemma compress_documents_errors (env : Env) (self : FlashrankRerank)
    (documents : list Document) (q : string) (callbacks : option Callbacks)
    (e : exn) :
  compress_documents env self documents q callbacks = Raise e →
  e = IndexError ∨ (∃ attr, e = AttributeError attr) ∨ (∃ u, e = Upstream u).
Proof.
  unfold compress_documents.
  destruct (get_client env self) as [c|e0] eqn:Hc; simpl.
  - destruct (call_rerank c _) as [results|e1] eqn:Hr; simpl.
    + rewrite collect_foldl.
      generalize (filter (λ r, score_ok self r = true)
                         (py_slice_to results (top_n self))).
      intros kept Hres. left.
      destruct (res_mapM _ kept) as [out|e2] eqn:Hm; simpl in Hres; [done|].
      injection Hres as ->. clear Hc Hr.
      induction kept as [|r kept IH]; simpl in Hm; [done|].
      unfold output_document at 1 in Hm. unfold py_getitem in Hm.
      destruct (py_index _ _) as [p|]; [|by injection Hm].
      destruct (documents !! p); [|by injection Hm].
      simpl in Hm. destruct (res_mapM _ kept); simpl in Hm; [done|].
      injection Hm as ->. by apply IH.
    + intros [= <-]. right.
      destruct c; simpl in Hr; try (injection Hr as <-; left; by eexists).
      destruct (rerank r _); simpl in Hr; [|done].
      injection Hr as <-. right. by eexists.
  - intros [= <-]. right. right. unfold get_client in Hc.
    destruct (truthy (client self)); [done|].
    destruct (Ranker_init env (model self)); simpl in Hc; [|done].
    injection Hc as <-. by eexists.
Qed.

(** C7, for a client that is truthy: instantiating the class with a
    [client] that is truthy and not a [Ranker] raises a configuration error,
    a [ValueError] when flashrank can be imported; no configuration error
    comes out of [compress_documents]. *)
Theorem wrong_client_is_rejected (env : Env) (values : gmap string pyobj)
    (c : pyobj) (self : FlashrankRerank) (documents : list Document)
    (q : string) (callbacks : option Callbacks) :
  values !! "client" = Some c →
  truthy c = true →
  isinstance_Ranker c = false →
  (∃ e, FlashrankRerank_init env values = Raise e
        ∧ is_configuration_error e = true
        ∧ (flashrank_installed env = true → ∃ msg, e = ValueError msg))
  ∧ ∀ e, compress_documents env self documents q callbacks = Raise e →
         is_configuration_error e = false.
Proof.
  intros Hc Ht Hi. split.
  - unfold FlashrankRerank_init, validate_environment.
    destruct (flashrank_installed env); simpl.
    + rewrite Hc, Ht, Hi. simpl. eexists. repeat split. by eexists.
    + eexists. repeat split. done.
  - intros e He.
    destruct (compress_documents_errors _ _ _ _ _ _ He)
      as [->|[[attr ->]|[u ->]]]; reflexivity.
Qed.

Lemma wrong_client_is_rejected_witness :
  (∃ e, FlashrankRerank_init sample_env {[ "client" := OStr "ms-marco" ]} = Raise e
        ∧ is_configuration_error e = true
        ∧ (flashrank_installed sample_env = true → ∃ msg, e = ValueError msg))
  ∧ ∀ e, compress_documents sample_env sample_config sample_documents
           "query" None = Raise e →
         is_configuration_error e = false.
Proof.
  apply (wrong_client_is_rejected sample_env {[ "client" := OStr "ms-marco" ]}
           (OStr "ms-marco") sample_config sample_documents "query" None);
    reflexivity.
Defined.

(** A client that is falsy, here the integer 0, is not a [Ranker] and
    passes the validator; the instance is built with it. *)
Lemma falsy_client_is_accepted :
  isinstance_Ranker (OInt 0) = false
  ∧ validate_environment sample_env {[ "client" := OInt 0 ]}
    = Ok {[ "client" := OInt 0 ]}
  ∧ FlashrankRerank_init sample_env {[ "client" := OInt 0 ]}
    = Ok (with_client (OInt 0) FlashrankRerank_defaults).
Proof. repeat split. Qed.

(** [get_client] passes over a falsy client as well and builds a [Ranker]
    from [model]. *)
Example falsy_client_is_unused :
  get_client sample_env (with_client (OInt 0) FlashrankRerank_defaults)
  = Ok (ORanker (echo_ranker 0.5%float)).
Proof. reflexivity. Qed.

(** * Further properties *)

(** ** The validator as a gate *)

(** The validator returns the keyword arguments untouched, and does so
    exactly when flashrank can be imported and the [client] given, if any,
    is falsy or a [Ranker]. *)
Theorem validate_environment_Ok (env : Env) (values vs : gmap string pyobj) :
  validate_environment env values = Ok vs
  ↔ vs = values
    ∧ flashrank_installed env = true
    ∧ match values !! "client" with
      | Some c => truthy c = false ∨ isinstance_Ranker c = true
      | None => True
      end.
Proof.
  unfold validate_environment.
  destruct (flashrank_installed env); simpl.
  - destruct (values !! "client") as [c|].
    + destruct (truthy c) eqn:Ht, (isinstance_Ranker c) eqn:Hi; simpl.
      * split; [intros [= <-]; auto | intros (-> & _ & _); done].
      * split; [done | intros (_ & _ & [?|?]); done].
      * split; [intros [= <-]; auto | intros (-> & _ & _); done].
      * split; [intros [= <-]; auto | intros (-> & _ & _); done].
    + split; [intros [= <-]; auto | intros (-> & _ & _); done].
  - split; [done | intros (_ & ? & _); done].
Qed.

(** Without the flashrank package instantiation ends in [ImportError]
    whatever the arguments are, a valid client included; the fields are
    not looked at. *)
Theorem missing_package_is_reported_first (env : Env)
    (values : gmap string pyobj) :
  flashrank_installed env = false →
  ∃ msg, FlashrankRerank_init env values = Raise (ImportError msg).
Proof.
  intros Hno. unfold FlashrankRerank_init, validate_environment.
  rewrite Hno. simpl. by eexists.
Qed.

Lemma missing_package_is_reported_first_witness :
  ∃ msg,
    FlashrankRerank_init bare_env
      {[ "client" := ORanker (echo_ranker 0.5%float) ]}
    = Raise (ImportError msg).
Proof.
  apply (missing_package_is_reported_first bare_env
           {[ "client" := ORanker (echo_ranker 0.5%float) ]}).
  reflexivity.
Defined.

(** ** The client in use *)

(** A client that passed the validator and was stored in the [client]
    field (or the field's default [None] when none was given) makes
    [get_client] return a [Ranker]: the [rerank] method is there, and
    [compress_documents] does not end in [AttributeError]. *)
Theorem validated_client_is_a_ranker (env : Env) (values vs : gmap string pyobj)
    (self : FlashrankRerank) (documents : list Document) (q : string)
    (callbacks : option Callbacks) :
  validate_environment env values = Ok vs →
  client self = default ONone (vs !! "client") →
  (∀ c, get_client env self = Ok c → isinstance_Ranker c = true)
  ∧ ∀ attr, compress_documents env self documents q callbacks
            ≠ Raise (AttributeError attr).
Proof.
  intros (-> & _ & Hcl)%validate_environment_Ok Hself.
  assert (∀ c, get_client env self = Ok c → isinstance_Ranker c = true) as Hget.
  { intros c. unfold get_client. rewrite Hself.
    destruct (values !! "client") as [c0|]; simpl.
    - destruct (truthy c0) eqn:Ht.
      + intros [= <-]. by destruct Hcl.
      + destruct (Ranker_init env (model self)); simpl; [done|]. by intros [= <-].
    - destruct (Ranker_init env (model self)); simpl; [done|]. by intros [= <-]. }
  split; [exact Hget|].
  intros attr Hraise. unfold compress_documents in Hraise.
  destruct (get_client env self) as [c|e] eqn:Hc; simpl in Hraise.
  - specialize (Hget c eq_refl). destruct c; try done. simpl in Hraise.
    destruct (rerank r _) as [u|results]; simpl in Hraise; [done|].
    rewrite collect_foldl in Hraise.
    destruct (res_mapM _ _) as [out|e] eqn:Hm; simpl in Hraise; [done|].
    injection Hraise as ->.
    revert Hm. generalize (filter (λ r0, score_ok self r0 = true)
                                  (py_slice_to results (top_n self))).
    intros kept. induction kept as [|r0 kept IH]; simpl; [done|].
    unfold output_document at 1, py_getitem.
    destruct (py_index _ _) as [p|]; [|done].
    destruct (documents !! p); [|done]. simpl.
    destruct (res_mapM _ kept); simpl; [done|].
    intros [= ->]. by apply IH.
  - injection Hraise as ->. unfold get_client in Hc.
    destruct (truthy (client self)); [done|].
    by destruct (Ranker_init env (model self)).
Qed.

Lemma validated_client_is_a_ranker_witness :
  (∀ c, get_client sample_env sample_config = Ok c → isinstance_Ranker c = true)
  ∧ ∀ attr, compress_documents sample_env sample_config sample_documents
              "query" None
            ≠ Raise (AttributeError attr).
Proof.
  apply (validated_client_is_a_ranker sample_env
           {[ "client" := ORanker (canned_ranker sample_results) ]}
           {[ "client" := ORanker (canned_ranker sample_results) ]}
           sample_config sample_documents "query" None);
    reflexivity.
Defined.

(** A truthy [client] is the one used: [Ranker(model_name=...)] is not
    called, so the outcome is the same in every environment, also in one
    where no model can be loaded. *)
Theorem configured_client_is_used (env env' : Env) (self : FlashrankRerank)
    (documents : list Document) (q : string) (callbacks : option Callbacks) :
  truthy (client self) = true →
  get_client env self = Ok (client self)
  ∧ compress_documents env self documents q callbacks
    = compress_documents env' self documents q callbacks.
Proof.
  intros Ht. unfold compress_documents, get_client. by rewrite Ht.
Qed.

Lemma configured_client_is_used_witness :
  get_client sample_env sample_config = Ok (client sample_config)
  ∧ compress_documents sample_env sample_config sample_documents "query" None
    = compress_documents offline_env sample_config sample_documents "query" None.
Proof.
  apply (configured_client_is_used sample_env offline_env sample_config
           sample_documents "query" None).
  reflexivity.
Defined.

(** ** Exceptions of the flashrank library *)

(** What flashrank raises comes out of [compress_documents] as it is:
    the failure to build a [Ranker] from [model] when no client is set,
    and the failure of [rerank]. *)
Theorem upstream_errors_propagate (env : Env) (self : FlashrankRerank)
    (documents : list Document) (q : string) (callbacks : option Callbacks)
    (e : string) :
  (truthy (client self) = false ∧ Ranker_init env (model self) = inl e)
  ∨ (∃ r, get_client env self = Ok (ORanker r)
          ∧ rerank r (rerank_request_of self documents q) = inl e) →
  compress_documents env self documents q callbacks = Raise (Upstream e).
Proof.
  unfold compress_documents. intros [[Ht Hinit]|(r & Hc & Hr)].
  - unfold get_client. by rewrite Ht, Hinit.
  - rewrite Hc. simpl. by rewrite Hr.
Qed.

Lemma upstream_errors_propagate_witness :
  compress_documents offline_env FlashrankRerank_defaults sample_documents
    "query" None
  = Raise (Upstream ("cannot load " +:+ DEFAULT_MODEL_NAME))
  ∧ compress_documents sample_env
      (with_client (ORanker (failing_ranker "out of memory"))
                   FlashrankRerank_defaults)
      sample_documents "query" None
    = Raise (Upstream "out of memory").
Proof.
  split.
  - apply (upstream_errors_propagate offline_env FlashrankRerank_defaults
             sample_documents "query" None).
    left. split; reflexivity.
  - apply (upstream_errors_propagate sample_env
             (with_client (ORanker (failing_ranker "out of memory"))
                          FlashrankRerank_defaults)
             sample_documents "query" None).
    right. eexists. split; reflexivity.
Defined.

(** ** Result ids that name no document *)

Lemma output_document_Ok (self : FlashrankRerank) (documents : list Document)
    (r : RerankResult) :
  (∃ doc, output_document self documents r = Ok doc)
  ↔ is_Some (py_index (length documents) (result_id r)).
Proof.
  unfold output_document, py_getitem. split.
  - intros [doc Hdoc]. by destruct (py_index _ _).
  - intros [p Hp]. rewrite Hp.
    destruct (lookup_lt_is_Some_2 documents p (py_index_lt _ _ _ Hp)) as [src ->].
    simpl. by eexists.
Qed.

Lemma output_document_Raise (self : FlashrankRerank) (documents : list Document)
    (r : RerankResult) (e : exn) :
  output_document self documents r = Raise e → e = IndexError.
Proof.
  unfold output_document, py_getitem.
  destruct (py_index _ _) as [p|]; [|by intros [= <-]].
  destruct (documents !! p); [done|by intros [= <-]].
Qed.

Lemma res_mapM_output_Raise (self : FlashrankRerank) (documents : list Document)
    (kept : list RerankResult) :
  Exists (λ r, py_index (length documents) (result_id r) = None) kept →
  res_mapM (output_document self documents) kept = Raise IndexError.
Proof.
  induction 1 as [r kept Hr|r kept _ IH]; simpl.
  - destruct (output_document self documents r) as [doc|e] eqn:Hd; simpl.
    + assert (is_Some (py_index (length documents) (result_id r))) as [p Hp]
        by (apply (output_document_Ok self); by eexists).
      congruence.
    + by rewrite (output_document_Raise _ _ _ _ Hd).
  - destruct (output_document self documents r) as [doc|e] eqn:Hd; simpl.
    + by rewrite IH.
    + by rewrite (output_document_Raise _ _ _ _ Hd).
Qed.

(** [documents[_id]] is evaluated for the kept results only.  When the id
    of each of them names a document, the call returns one document per
    kept result; when the id of one of them names none, the call raises
    [IndexError] and returns nothing, the documents built before it
    included.  Ids of results cut off by [top_n] or under the threshold
    play no part. *)
Theorem returns_iff_kept_ids_resolve (env : Env) (self : FlashrankRerank)
    (documents : list Document) (q : string) (callbacks : option Callbacks)
    (c : pyobj) (results : list RerankResult) :
  get_client env self = Ok c →
  call_rerank c (rerank_request_of self documents q) = Ok results →
  (Forall (λ r, is_Some (py_index (length documents) (result_id r)))
          (filter (λ r, score_ok self r = true)
                  (py_slice_to results (top_n self))) →
   ∃ out, compress_documents env self documents q callbacks = Ok out
          ∧ length out
            = length (filter (λ r, score_ok self r = true)
                             (py_slice_to results (top_n self))))
  ∧ (Exists (λ r, py_index (length documents) (result_id r) = None)
            (filter (λ r, score_ok self r = true)
                    (py_slice_to results (top_n self))) →
     compress_documents env self documents q callbacks = Raise IndexError).
Proof.
  intros Hc Hr.
  rewrite (compress_documents_run env self documents q callbacks c results Hc Hr).
  split.
  - intros Hall.
    destruct (res_mapM_total (output_document self documents)
                (filter (λ r, score_ok self r = true)
                        (py_slice_to results (top_n self)))) as [out Hout].
    { eapply Forall_impl; [exact Hall|]. intros r Hsome.
      by apply output_document_Ok. }
    exists out. split; [done|]. by eapply res_mapM_length.
  - apply res_mapM_output_Raise.
Qed.

Lemma returns_iff_kept_ids_resolve_witness :
  (Forall (λ r, is_Some (py_index (length sample_documents) (result_id r)))
          (filter (λ r, score_ok stray_config r = true)
                  (py_slice_to stray_results (top_n stray_config))) →
   ∃ out, compress_documents sample_env stray_config sample_documents
            "query" None = Ok out
          ∧ length out
            = length (filter (λ r, score_ok stray_config r = true)
                             (py_slice_to stray_results (top_n stray_config))))
  ∧ compress_documents sample_env stray_config sample_documents "query" None
    = Raise IndexError.
Proof.
  destruct (returns_iff_kept_ids_resolve sample_env stray_config
              sample_documents "query" None
              (ORanker (canned_ranker stray_results)) stray_results
              eq_refl eq_refl) as [Hok Hraise].
  split; [exact Hok|]. apply Hraise.
  apply Exists_cons_tl, Exists_cons_hd. reflexivity.
Defined.

(** The same results with [top_n = 1]: the stray id is cut off and the
    call returns. *)
Example stray_id_cut_off :
  page_content <$>
    default [] (match compress_documents sample_env
                        {| client := client stray_config;
                           model := model stray_config;
                           top_n := 1;
                           score_threshold := score_threshold stray_config;
                           prefix_metadata := prefix_metadata stray_config;
                           filter_metadata_keys :=
                             filter_metadata_keys stray_config |}
                        sample_documents "query" None with
                | Ok out => Some out
                | Raise _ => None
                end) = ["d1"].
Proof. reflexivity. Qed.

(** ** Text of the returned documents *)

(** The [page_content] of the returned documents are the texts of the
    kept results, in their order: the text comes from the client's answer,
    not from the input document the id names. *)
Theorem page_content_is_result_text (env : Env) (self : FlashrankRerank)
    (documents : list Document) (q : string) (callbacks : option Callbacks)
    (c : pyobj) (results : list RerankResult) (out : list Document) :
  get_client env self = Ok c →
  call_rerank c (rerank_request_of self documents q) = Ok results →
  compress_documents env self documents q callbacks = Ok out →
  page_content <$> out
  = result_text <$> filter (λ r, score_ok self r = true)
                           (py_slice_to results (top_n self)).
Proof.
  intros Hc Hr Hout.
  rewrite (compress_documents_run env self documents q callbacks c results Hc Hr)
    in Hout.
  apply res_mapM_Ok in Hout. revert Hout.
  generalize (filter (λ r, score_ok self r = true)
                     (py_slice_to results (top_n self))).
  intros kept Hout.
  induction Hout as [|r doc kept out Hdoc _ IH]; [done|].
  rewrite !fmap_cons, IH. f_equal.
  unfold output_document in Hdoc.
  destruct (py_getitem documents (result_id r)); simpl in Hdoc; [|done].
  by injection Hdoc as <-.
Qed.

Lemma page_content_is_result_text_witness :
  page_content <$>
    [ {| page_content := "second";
         metadata := {[ "source" := VStr "b.txt"; "id" := VInt 1;
                        "relevance_score" := VFloat 0.75%float ]} |} ]
  = result_text <$>
      filter (λ r, score_ok retitled_config r = true)
             (py_slice_to retitled_results (top_n retitled_config)).
Proof.
  apply (page_content_is_result_text sample_env retitled_config
           sample_documents "query" None
           (ORanker (canned_ranker retitled_results)) retitled_results);
    [reflexivity | reflexivity | vm_compute; reflexivity].
Defined.

(** ** Independence from the metadata filter *)

(** Changing [filter_metadata_keys] changes the request only: when the
    client gives the same answer to both requests, the same documents are
    returned, with the same metadata. *)
Theorem output_independent_of_filter (env : Env) (self : FlashrankRerank)
    (keys : option (gset string)) (documents : list Document) (q : string)
    (callbacks : option Callbacks) (r : Ranker) (results : list RerankResult) :
  get_client env self = Ok (ORanker r) →
  rerank r (rerank_request_of self documents q) = inr results →
  rerank r (rerank_request_of (with_filter keys self) documents q) = inr results →
  compress_documents env (with_filter keys self) documents q callbacks
  = compress_documents env self documents q callbacks.
Proof.
  intros Hc Hr Hr'.
  rewrite (compress_documents_run env self documents q callbacks
             (ORanker r) results Hc); [|simpl; by rewrite Hr].
  rewrite (compress_documents_run env (with_filter keys self) documents q
             callbacks (ORanker r) results); [done|exact Hc|].
  simpl. by rewrite Hr'.
Qed.

Lemma output_independent_of_filter_witness :
  compress_documents sample_env
    (with_filter (Some {[ "lang" ]}) sample_config) sample_documents "query" None
  = compress_documents sample_env sample_config sample_documents "query" None.
Proof.
  apply (output_independent_of_filter sample_env sample_config
           (Some {[ "lang" ]}) sample_documents "query" None
           (canned_ranker sample_results) sample_results);
    reflexivity.
Defined.

(** ** Other values of [top_n] *)



(** With [top_n] at least the number of results nothing is cut off: every
    result that meets the threshold is turned into a document. *)
Theorem wide_top_n_keeps_all (env : Env) (self : FlashrankRerank)
    (documents : list Document) (q : string) (callbacks : option Callbacks)
    (c : pyobj) (results : list RerankResult) :
  Z.of_nat (length results) ≤ top_n self →
  get_client env self = Ok c →
  call_rerank c (rerank_request_of self documents q) = Ok results →
  compress_documents env self documents q callbacks
  = res_mapM (output_document self documents)
             (filter (λ r, score_ok self r = true) results).
Proof.
  intros Hle Hc Hr.
  rewrite (compress_documents_run env self documents q callbacks c results Hc Hr).
  rewrite py_slice_to_nonneg by lia.
  by rewrite take_ge by lia.
Qed.

Lemma wide_top_n_keeps_all_witness :
  compress_documents sample_env wide_config sample_documents "query" None
  = res_mapM (output_document wide_config sample_documents)
             (filter (λ r, score_ok wide_config r = true) sample_results).
Proof.
  apply (wide_top_n_keeps_all sample_env wide_config sample_documents
           "query" None (ORanker (canned_ranker sample_results)) sample_results);
    [vm_compute; discriminate | reflexivity | reflexivity].
Defined.

(** ** NaN *)

(** [x <= y] on floats fails as soon as one side is NaN. *)
Lemma float_leb_not_nan (x y : float) :
  (x <=? y)%float = true → is_nan x = false ∧ is_nan y = false.
Proof.
  unfold is_nan. rewrite !FloatAxioms.eqb_spec, FloatAxioms.leb_spec.
  unfold SFeqb, SFleb.
  destruct (Prim2SF x) as [sx|sx| |sx mx ex], (Prim2SF y) as [sy|sy| |sy my ey];
    simpl; try done;
    repeat match goal with s : bool |- _ => destruct s end; simpl;
    rewrite ?Z.compare_refl, ?Pos.compare_cont_refl; done.
Qed.

Lemma filter_none {A} (P : A → Prop) `{!∀ x, Decision (P x)} (l : list A) :
  (∀ x, x ∈ l → ¬ P x) → filter P l = [].
Proof.
  induction l as [|x l IH]; intros Hnone; [done|].
  rewrite filter_cons_False by (apply Hnone; left).
  apply IH. intros y Hy. apply Hnone. by right.
Qed.

(** A result whose score is NaN is dropped whatever the threshold, and
    with a NaN threshold no result is kept: the call then returns the empty
    list without looking up any document. *)
Theorem nan_is_never_kept (env : Env) (self : FlashrankRerank)
    (documents : list Document) (q : string) (callbacks : option Callbacks)
    (c : pyobj) (results : list RerankResult) :
  get_client env self = Ok c →
  call_rerank c (rerank_request_of self documents q) = Ok results →
  (∀ r, is_nan (result_score r) = true → score_ok self r = false)
  ∧ (is_nan (score_threshold self) = true →
     compress_documents env self documents q callbacks = Ok []).
Proof.
  intros Hc Hr. split.
  - intros r Hnan. destruct (score_ok self r) eqn:Hok; [|done].
    apply float_leb_not_nan in Hok as [_ Hok]. congruence.
  - intros Hnan.
    rewrite (compress_documents_run env self documents q callbacks c results Hc Hr).
    rewrite filter_none; [done|].
    intros r _ Hok. apply float_leb_not_nan in Hok as [Hok _]. congruence.
Qed.

Lemma nan_is_never_kept_witness :
  (∀ r, is_nan (result_score r) = true → score_ok nan_threshold_config r = false)
  ∧ (is_nan (score_threshold nan_threshold_config) = true →
     compress_documents sample_env nan_threshold_config sample_documents
       "query" None = Ok []).
Proof.
  apply (nan_is_never_kept sample_env nan_threshold_config sample_documents
           "query" None (ORanker (canned_ranker sample_results)) sample_results);
    reflexivity.
Defined.

(** ** The request without a filter *)

(** When [filter_metadata_keys] is [None] or the empty set, the passages
    of the request are the documents in input order, each with its
    position as id, its text and its whole metadata. *)
Theorem unfiltered_request (self : FlashrankRerank) (documents : list Document)
    (q : string) :
  filter_metadata_keys self = None ∨ filter_metadata_keys self = Some ∅ →
  query (rerank_request_of self documents q) = q
  ∧ passages (rerank_request_of self documents q)
    = imap (λ i doc, {| passage_id := Z.of_nat i;
                        passage_text := page_content doc;
                        passage_meta := metadata doc |}) documents.
Proof.
  intros Hkeys. split; [done|]. simpl. rewrite build_passages_imap.
  apply imap_ext. intros i doc _. unfold passage_of.
  by destruct Hkeys as [->| ->].
Qed.

Lemma unfiltered_request_witness :
  query (rerank_request_of empty_filter_config sample_documents "query") = "query"
  ∧ passages (rerank_request_of empty_filter_config sample_documents "query")
    = imap (λ i doc, {| passage_id := Z.of_nat i;
                        passage_text := page_content doc;
                        passage_meta := metadata doc |}) sample_documents.
Proof.
  apply (unfiltered_request empty_filter_config sample_documents "query").
  right. reflexivity.
Defined.

(** ** The client built from [model] *)

(** Without a client (or with a falsy one) each call builds a [Ranker]
    from [model], and the call goes on as if that [Ranker] had been given
    as [client]. *)
Theorem missing_client_is_built_from_model (env : Env) (self : FlashrankRerank)
    (r : Ranker) (documents : list Document) (q : string)
    (callbacks : option Callbacks) :
  truthy (client self) = false →
  Ranker_init env (model self) = inr r →
  get_client env self = Ok (ORanker r)
  ∧ compress_documents env self documents q callbacks
    = compress_documents env (with_client (ORanker r) self) documents q callbacks.
Proof.
  intros Ht Hinit. unfold compress_documents, get_client.
  rewrite Ht, Hinit. done.
Qed.

Lemma missing_client_is_built_from_model_witness :
  get_client sample_env FlashrankRerank_defaults
  = Ok (ORanker (echo_ranker 0.5%float))
  ∧ compress_documents sample_env FlashrankRerank_defaults sample_documents
      "query" None
    = compress_documents sample_env
        (with_client (ORanker (echo_ranker 0.5%float)) FlashrankRerank_defaults)
        sample_documents "query" None.
Proof.
  apply (missing_client_is_built_from_model sample_env FlashrankRerank_defaults
           (echo_ranker 0.5%float) sample_documents "query" None);
    reflexivity.
Defined.

(** With the defaults and a client that echoes its passages, the first
    three documents come back in input order. *)
Example defaults_with_echo_client :
  page_content <$>
    default [] (match compress_documents sample_env FlashrankRerank_defaults
                        sample_documents "query" None with
                | Ok out => Some out
                | Raise _ => None
                end) = ["d0"; "d1"; "d2"].
Proof. reflexivity. Qed.
